(** * The syntax-tree content provider of the Biome editor extension

    A shallow embedding of [src/Source/commands/syntaxTree.ts]: the class
    [SyntaxTreeProvider], its cache of syntax-tree documents, the three
    lifecycle handlers, the content query with its single asynchronous
    request, disposal and the link query.

    The provider is a mutable object; here it is a record that every method
    takes and gives back.  The language client's promises are kept in the
    order in which [sendRequest] created them: a promise is named by its
    position, it is created pending with the [then] callback registered on
    it, and it settles at most once. *)

From stdpp Require Import base option list strings gmap.

Set Default Proof Using "Type".

(** ** Data of the host editor *)

(** [Uri]: only its canonical string, the result of [toString()], is used. *)
Record Uri := { toString : string }.

Module Uri.
Definition parse (s : string) : Uri := {| toString := s |}.
End Uri.

Record TextDocument := { doc_uri : Uri }.
Record TextEditor := { editor_document : TextDocument }.
Record TextDocumentChangeEvent := { event_document : TextDocument }.
Record DocumentLink := { link_target : option Uri }.

(** A cancellation token is identified by a number. *)
Definition CancellationToken := nat.

(** [type FilePath = string] *)
Definition FilePath := string.

(** [SyntaxTreeParams]: [{ textDocument: { uri } }] *)
Record SyntaxTreeParams := { textDocument_uri : string }.

(** Modelled from the spec: the class [SyntaxTreeDocument] of
    [./syntaxTreeDocument], which is imported but is not among the sources.
    A cache entry is built from the view resource and the response of the
    analysis service, and [value] gives the artifact text back. *)
Record SyntaxTreeDocument := new_SyntaxTreeDocument
  { std_uri : Uri; value : string }.

(** ** Promises *)

(** Why a request was rejected: the token was signalled, or the service
    answered with an error. *)
Inductive Reason :=
| RequestCancelled
| ServiceError (message : string).

Inductive Settlement (A : Type) :=
| Fulfilled (a : A)
| Rejected (e : Reason).
Arguments Fulfilled {A} a.
Arguments Rejected {A} e.

(** What a method hands to the host: a value now ([undefined] is [None]), or
    a promise. *)
Inductive ProviderResult (A : Type) :=
| Value (v : option A)
| Thenable (p : nat).
Arguments Value {A} v.
Arguments Thenable {A} p.

(** The arrow function given to [then] in [provideTextDocumentContent]
    closes over the parameter [uri] and the constant [documentUri]. *)
Record ThenClosure := { captured_uri : Uri; captured_documentUri : FilePath }.

Inductive PromiseState :=
| Pending
| Settled (s : Settlement string).

(** One call of [client.sendRequest(syntaxTreeRequest, params, token)]
    together with the promise it returned. *)
Record Request := {
  req_params : SyntaxTreeParams;
  req_token : CancellationToken;
  req_then : ThenClosure;
  req_state : PromiseState
}.

(** ** The session and the provider *)

(** [Session]: the editor in focus, owned by the host, and the language
    client, seen as the requests it was asked to send. *)
Record Session := {
  editor : option TextEditor;
  client : list Request
}.

(** [SyntaxTreeProvider]: [eventEmitter] is seen as the list of values it
    fired, oldest first. *)
Record SyntaxTreeProvider := {
  session : Session;
  eventEmitter : list Uri;
  documents : gmap string SyntaxTreeDocument
}.

Definition scheme : string := "biome".

(** [Uri.parse(`${SyntaxTreeProvider.scheme}:syntax_tree/tree.rast`)] *)
Definition uri : Uri := Uri.parse (scheme +:+ ":syntax_tree/tree.rast").

Definition constructor (s : Session) : SyntaxTreeProvider :=
  {| session := s; eventEmitter := []; documents := ∅ |}.

Definition set_documents (f : gmap string SyntaxTreeDocument → gmap string SyntaxTreeDocument)
    (this : SyntaxTreeProvider) : SyntaxTreeProvider :=
  {| session := session this;
     eventEmitter := eventEmitter this;
     documents := f (documents this) |}.

(** [this.eventEmitter.fire(u)] *)
Definition fire (u : Uri) (this : SyntaxTreeProvider) : SyntaxTreeProvider :=
  {| session := session this;
     eventEmitter := eventEmitter this ++ [u];
     documents := documents this |}.

Definition set_client (f : list Request → list Request)
    (this : SyntaxTreeProvider) : SyntaxTreeProvider :=
  {| session := {| editor := editor (session this);
                   client := f (client (session this)) |};
     eventEmitter := eventEmitter this;
     documents := documents this |}.

(** The host moves the focus: it assigns [session.editor]. *)
Definition set_editor (e : option TextEditor)
    (this : SyntaxTreeProvider) : SyntaxTreeProvider :=
  {| session := {| editor := e; client := client (session this) |};
     eventEmitter := eventEmitter this;
     documents := documents this |}.

(** [client.sendRequest(syntaxTreeRequest, params, token).then(cb)]: the
    request goes out, and the new promise is the last one. *)
Definition sendRequest (params : SyntaxTreeParams) (token : CancellationToken)
    (cb : ThenClosure) (this : SyntaxTreeProvider) : SyntaxTreeProvider * nat :=
  (set_client (λ c, c ++ [ {| req_params := params; req_token := token;
                              req_then := cb; req_state := Pending |} ]) this,
   length (client (session this))).

(** ** What the host does to the provider *)

(** The host calls the handlers, asks for content, runs the command, moves
    the focus and disposes of the provider; the language client settles the
    promises it gave out.  The command waits for [openTextDocument] before
    it touches the provider: [CommandRun] carries how that promise
    settled. *)
Inductive Event :=
| DidChangeTextDocument (event : TextDocumentChangeEvent)
| DidChangeActiveTextEditor (e : option TextEditor)
| DidCloseTextDocument (doc : option TextDocument)
| FocusMoved (e : option TextEditor)
| ContentRequested (u : Uri) (token : CancellationToken)
| RequestSettled (p : nat) (s : Settlement string)
| CommandRun (opened : Settlement TextDocument)
| Disposed.

(** The identity a handler call removes from the cache, if any. *)
Definition invalidated (ev : Event) : option FilePath :=
  match ev with
  | DidChangeTextDocument event => Some (toString (doc_uri (event_document event)))
  | DidCloseTextDocument (Some doc) => Some (toString (doc_uri doc))
  | _ => None
  end.

(** An event after which the cache has no entry for [D]. *)
Definition invalidates (D : FilePath) (ev : Event) : Prop :=
  invalidated ev = Some D ∨ ev = Disposed.




(** ** The documents of the scenarios *)

Definition a_ts : TextDocument := {| doc_uri := Uri.parse "file:///a.ts" |}.
Definition b_py : TextDocument := {| doc_uri := Uri.parse "file:///b.py" |}.
Definition editor_a : TextEditor := {| editor_document := a_ts |}.
Definition editor_b : TextEditor := {| editor_document := b_py |}.

(** A classifier for the scenarios: every editor but the one on [b.py]. *)
Definition not_python (ed : TextEditor) : bool :=
  bool_decide (toString (doc_uri (editor_document ed)) ≠ "file:///b.py").

(** Scenario A: a first query for [a.ts], answered with ["TREE(a)"]. *)
Definition scenario_A : list Event :=
  [ContentRequested uri 7; RequestSettled 0 (Fulfilled "TREE(a)")].


(** An edit of [a.ts] while its request is in flight, answered afterwards. *)
Definition scenario_late_answer : list Event :=
  [ContentRequested uri 7;
   DidChangeTextDocument {| event_document := a_ts |};
   RequestSettled 0 (Fulfilled "TREE(a), before the edit")].

(** The provider at the end of scenario A. *)
Definition provider_with_a : SyntaxTreeProvider :=
  {| session :=
       {| editor := Some editor_a;
          client :=
            [ {| req_params := {| textDocument_uri := "file:///a.ts" |};
                 req_token := 7;
                 req_then := {| captured_uri := uri;
                                captured_documentUri := "file:///a.ts" |};
                 req_state := Settled (Fulfilled "TREE(a)") |} ] |};
     eventEmitter := [];
     documents := {[ "file:///a.ts" := new_SyntaxTreeDocument uri "TREE(a)" ]} |}.

(** The provider after a first query for [a.ts], its request in flight. *)
Definition provider_fetching_a : SyntaxTreeProvider :=
  {| session :=
       {| editor := Some editor_a;
          client :=
            [ {| req_params := {| textDocument_uri := "file:///a.ts" |};
                 req_token := 7;
                 req_then := {| captured_uri := uri;
                                captured_documentUri := "file:///a.ts" |};
                 req_state := Pending |} ] |};
     eventEmitter := [];
     documents := ∅ |}.

(** Between an edit of [a.ts] and the next query for it: the focus goes
    to [b.py], whose tree is asked for and arrives, and comes back. *)
Definition focus_round_trip : list Event :=
  [DidChangeActiveTextEditor (Some editor_b); FocusMoved (Some editor_b);
   ContentRequested uri 8; RequestSettled 1 (Fulfilled "TREE(b)");
   DidChangeActiveTextEditor (Some editor_a); FocusMoved (Some editor_a)].

Section Provider.

(** [isBiomeEditor] of [../utils], the classifier of editors. *)
Variable isBiomeEditor : TextEditor → bool.

(** ** The lifecycle handlers *)

Definition onDidChangeTextDocument (event : TextDocumentChangeEvent)
    (this : SyntaxTreeProvider) : SyntaxTreeProvider :=
  fire uri (set_documents (delete (toString (doc_uri (event_document event)))) this).

Definition onDidChangeActiveTextEditor (e : option TextEditor)
    (this : SyntaxTreeProvider) : SyntaxTreeProvider :=
  match e with
  | Some ed => if isBiomeEditor ed then fire uri this else this
  | None => this
  end.

Definition onDidCloseTextDocument (doc : option TextDocument)
    (this : SyntaxTreeProvider) : SyntaxTreeProvider :=
  match doc with
  | Some d => fire uri (set_documents (delete (toString (doc_uri d))) this)
  | None => this
  end.

(** ** The content query *)

(** The body of the [then] callback, run when the request is fulfilled. *)
Definition then_callback (cl : ThenClosure) (result : string)
    (this : SyntaxTreeProvider) : SyntaxTreeProvider * string :=
  let document := new_SyntaxTreeDocument (captured_uri cl) result in
  (set_documents (insert (captured_documentUri cl) document) this,
   value document).

Definition provideTextDocumentContent (u : Uri) (token : CancellationToken)
    (this : SyntaxTreeProvider) : SyntaxTreeProvider * ProviderResult string :=
  match editor (session this) with
  | None => (this, Value None)
  | Some ed =>
      let documentUri := toString (doc_uri (editor_document ed)) in
      match documents this !! documentUri with
      | Some document => (this, Value (Some (value document)))
      | None =>
          let params := {| textDocument_uri := documentUri |} in
          let '(this', p) :=
            sendRequest params token
              {| captured_uri := u; captured_documentUri := documentUri |} this in
          (this', Thenable p)
      end
  end.

(** The promise [p] of the client settles with [s]; the promise that
    [then] returned, the one the host holds, settles with the outcome given
    back.  [None]: there is no pending promise [p]. *)
Definition settle (p : nat) (s : Settlement string)
    (this : SyntaxTreeProvider)
    : option (SyntaxTreeProvider * Settlement string) :=
  match client (session this) !! p with
  | Some r =>
      match req_state r with
      | Pending =>
          let this1 :=
            set_client (λ c, <[p := {| req_params := req_params r;
                                       req_token := req_token r;
                                       req_then := req_then r;
                                       req_state := Settled s |}]> c) this in
          match s with
          | Fulfilled result =>
              let '(this2, v) := then_callback (req_then r) result this1 in
              Some (this2, Fulfilled v)
          | Rejected e => Some (this1, Rejected e)
          end
      | Settled _ => None
      end
  | None => None
  end.

Definition dispose (this : SyntaxTreeProvider) : SyntaxTreeProvider :=
  set_documents (λ _, ∅) this.

Definition provideDocumentLinks (document : TextDocument)
    (this : SyntaxTreeProvider) : ProviderResult (list DocumentLink) :=
  match documents this !! toString (doc_uri document) with
  | Some _ => Value (Some [])
  | None => Value None
  end.

(** The command returned by [syntaxTree]:
    [await workspace.openTextDocument(provider.uri)] comes first; when it
    resolves the emitter is fired once, when it rejects the function ends
    there and nothing is fired.  [showTextDocument], awaited last, does
    nothing to the provider. *)
Definition command (opened : Settlement TextDocument)
    (this : SyntaxTreeProvider) : SyntaxTreeProvider :=
  match opened with
  | Fulfilled _ => fire uri this
  | Rejected _ => this
  end.

(** ** Runs *)

Definition step (ev : Event) (this : SyntaxTreeProvider) : SyntaxTreeProvider :=
  match ev with
  | DidChangeTextDocument event => onDidChangeTextDocument event this
  | DidChangeActiveTextEditor e => onDidChangeActiveTextEditor e this
  | DidCloseTextDocument doc => onDidCloseTextDocument doc this
  | FocusMoved e => set_editor e this
  | ContentRequested u token => fst (provideTextDocumentContent u token this)
  | RequestSettled p s =>
      match settle p s this with
      | Some (this', _) => this'
      | None => this
      end
  | CommandRun opened => command opened this
  | Disposed => dispose this
  end.

Fixpoint run (tr : list Event) (this : SyntaxTreeProvider) : SyntaxTreeProvider :=
  match tr with
  | [] => this
  | ev :: tr' => run tr' (step ev this)
  end.

(** The provider as [syntaxTree] creates it, before any request. *)
Definition start (e : option TextEditor) : SyntaxTreeProvider :=
  constructor {| editor := e; client := [] |}.

(** A state that a handler call for [D] leaves behind. *)
Inductive invalidated_by_handler (D : FilePath) (this : SyntaxTreeProvider)
  : SyntaxTreeProvider → Prop :=
| by_change event :
    toString (doc_uri (event_document event)) = D →
    invalidated_by_handler D this (onDidChangeTextDocument event this)
| by_close doc :
    toString (doc_uri doc) = D →
    invalidated_by_handler D this (onDidCloseTextDocument (Some doc) this).

(** The event is the success of a request in flight whose callback
    captured [D]: the one event that writes an entry for [D]. *)
Definition answers (D : FilePath) (ev : Event) (this : SyntaxTreeProvider) : bool :=
  match ev with
  | RequestSettled p (Fulfilled _) =>
      match client (session this) !! p with
      | Some r =>
          match req_state r with
          | Pending => bool_decide (captured_documentUri (req_then r) = D)
          | Settled _ => false
          end
      | None => false
      end
  | _ => false
  end.

(** No event of the run [tr] from [this] answers a request for [D]. *)
Fixpoint unanswered (D : FilePath) (tr : list Event) (this : SyntaxTreeProvider)
    : bool :=
  match tr with
  | [] => true
  | ev :: tr' => negb (answers D ev this) && unanswered D tr' (step ev this)
  end.

(** The one request a query for [D] sends. *)
Definition request_for (D : FilePath) (u : Uri) (token : CancellationToken)
    : Request :=
  {| req_params := {| textDocument_uri := D |};
     req_token := token;
     req_then := {| captured_uri := u; captured_documentUri := D |};
     req_state := Pending |}.

(** Invalidation as the specification words it: once a handler has run for
    [D] the entry is gone, and the next content query with [D] in focus,
    there being no query in [tr], sends exactly one request. *)
Definition refetch_after_invalidation
    (this this' : SyntaxTreeProvider) (D : FilePath) (tr : list Event)
    (ed : TextEditor) (u : Uri) (token : CancellationToken) : Prop :=
  invalidated_by_handler D this this' →
  Forall (λ ev, ∀ u' token', ev ≠ ContentRequested u' token') tr →
  editor (session (run tr this')) = Some ed →
  toString (doc_uri (editor_document ed)) = D →
  documents this' !! D = None
  ∧ ∃ after p,
      provideTextDocumentContent u token (run tr this') = (after, Thenable p)
      ∧ client (session after)
        = client (session (run tr this')) ++ [request_for D u token].


(** ** Events, classified *)

(** The events whose handler fires the emitter: a change, the close of a
    document that is given, a change of the active editor that
    [isBiomeEditor] accepts, and the command once the view is opened. *)
Definition notifies (ev : Event) : bool :=
  match ev with
  | DidChangeTextDocument _ => true
  | DidChangeActiveTextEditor (Some ed) => isBiomeEditor ed
  | DidCloseTextDocument (Some _) => true
  | CommandRun (Fulfilled _) => true
  | _ => false
  end.

(** An event that can neither remove nor replace the entry of [D]. *)
Definition keeps (D : FilePath) (ev : Event) : Prop :=
  match ev with
  | RequestSettled _ (Fulfilled _) => False
  | _ => ¬ invalidates D ev
  end.

(** A content query that has to ask the language client: an editor is in
    focus and its document has no entry. *)
Definition sends_request (ev : Event) (this : SyntaxTreeProvider) : bool :=
  match ev with
  | ContentRequested _ _ =>
      match editor (session this) with
      | Some ed =>
          bool_decide
            (documents this !! toString (doc_uri (editor_document ed)) = None)
      | None => false
      end
  | _ => false
  end.

(** * Properties *)

(** ** Projections of the state updates *)

Lemma documents_fire u this : documents (fire u this) = documents this.
Proof. reflexivity. Qed.

Lemma documents_set_client f this :
  documents (set_client f this) = documents this.
Proof. reflexivity. Qed.

Lemma set_documents_id this : set_documents (λ m, m) this = this.
Proof. by destruct this. Qed.

(** ** The hit path *)

(** C1: when the active document has an entry in the cache,
    [provideTextDocumentContent] returns the text of that entry at once and
    leaves the provider as it was; in particular the language client was
    asked for nothing. *)
Theorem provideTextDocumentContent_hit
    (this : SyntaxTreeProvider) (u : Uri) (token : CancellationToken)
    (ed : TextEditor) (document : SyntaxTreeDocument) :
  editor (session this) = Some ed →
  documents this !! toString (doc_uri (editor_document ed)) = Some document →
  provideTextDocumentContent u token this = (this, Value (Some (value document)))
  ∧ client (session (fst (provideTextDocumentContent u token this)))
    = client (session this).
Proof.
  intros Hed Hdoc. unfold provideTextDocumentContent.
  rewrite Hed. simpl. by rewrite Hdoc.
Qed.

(** ** No active document *)

(** C6: without an active editor the query answers [undefined] at once.
    The provider is unchanged, so nothing was sent and nothing was stored,
    and the answer is the same whatever the cache holds: the cache is not
    consulted. *)
Theorem provideTextDocumentContent_no_editor
    (this : SyntaxTreeProvider) (u : Uri) (token : CancellationToken) :
  editor (session this) = None →
  provideTextDocumentContent u token this = (this, Value None)
  ∧ ∀ f, provideTextDocumentContent u token (set_documents f this)
         = (set_documents f this, Value None).
Proof.
  intros Hed. split; [|intros f]; unfold provideTextDocumentContent; simpl;
    by rewrite Hed.
Qed.

(** ** The handlers *)

(** C5: the handler of active-editor changes fires the emitter, once and
    with the view's [uri], exactly when an editor is given and
    [isBiomeEditor] accepts it; otherwise the emitter is left alone.  The
    cache is the same afterwards in every case. *)
Theorem onDidChangeActiveTextEditor_spec
    (this : SyntaxTreeProvider) (e : option TextEditor) :
  let this' := onDidChangeActiveTextEditor e this in
  (eventEmitter this' = eventEmitter this ++ [uri]
   ↔ ∃ ed, e = Some ed ∧ isBiomeEditor ed = true)
  ∧ (eventEmitter this' = eventEmitter this
     ↔ ¬ ∃ ed, e = Some ed ∧ isBiomeEditor ed = true)
  ∧ documents this' = documents this
  ∧ session this' = session this.
Proof.
  assert (Hne : ∀ l : list Uri, l ++ [uri] ≠ l).
  { intros l H. apply (f_equal length) in H. rewrite length_app in H.
    simpl in H. lia. }
  assert (Hne' : ∀ l : list Uri, l ≠ l ++ [uri]) by (intros l H; by apply (Hne l)).
  unfold onDidChangeActiveTextEditor.
  destruct e as [ed|]; [destruct (isBiomeEditor ed) eqn:Hb|]; simpl.
  - split_and!; [split; eauto | split | done | done].
    + intros H. by apply Hne in H.
    + intros H. destruct H. eauto.
  - split_and!; [split | split | done | done]; try done.
    + intros H. by apply Hne' in H.
    + intros (ed' & [= <-] & H). congruence.
    + intros _ (ed' & [= <-] & H). congruence.
  - split_and!; [split | split | done | done]; try done.
    + intros H. by apply Hne' in H.
    + intros (ed' & H & _). done.
    + intros _ (ed' & H & _). done.
Qed.

(** C7: removing [D1] from the cache, by the handler of document changes,
    by the handler of closed documents or by a bare [delete], does not
    touch the lookup of another identity [D2]. *)
Theorem invalidation_is_scoped
    (this this' : SyntaxTreeProvider) (D1 D2 : FilePath) :
  D1 ≠ D2 →
  invalidated_by_handler D1 this this'
  ∨ this' = set_documents (delete D1) this →
  documents this' !! D2 = documents this !! D2.
Proof.
  intros Hne [H | ->].
  - destruct H as [event <- | doc <-]; simpl; by rewrite lookup_delete_ne.
  - simpl. by rewrite lookup_delete_ne.
Qed.

(** C8: the link query answers the empty list when the cache has an entry
    for the document it is given, and [undefined] when it has none. *)
Theorem provideDocumentLinks_spec
    (this : SyntaxTreeProvider) (document : TextDocument) :
  (is_Some (documents this !! toString (doc_uri document))
   ↔ provideDocumentLinks document this = Value (Some []))
  ∧ (documents this !! toString (doc_uri document) = None
     ↔ provideDocumentLinks document this = Value None).
Proof.
  unfold provideDocumentLinks.
  destruct (documents this !! toString (doc_uri document)) eqn:H.
  - split; split; try done; by eauto.
  - split; split; try done; by intros [? ?].
Qed.

(** C9: after [dispose] the cache has no entry, for any identity at all. *)
Theorem dispose_clears (this : SyntaxTreeProvider) (D : FilePath) :
  documents (dispose this) !! D = None.
Proof. apply lookup_empty. Qed.

(** ** Requests that fail *)

(** C3: when a pending request is rejected, for a service error or for a
    cancellation alike, the promise held by the caller is rejected with the
    very same reason, the cache is the same map as before (so an identity
    without an entry still has none) and nothing is fired. *)
Theorem settle_rejected
    (this : SyntaxTreeProvider) (p : nat) (r : Request) (e : Reason) :
  client (session this) !! p = Some r →
  req_state r = Pending →
  ∃ this',
    settle p (Rejected e) this = Some (this', Rejected e)
    ∧ documents this' = documents this
    ∧ (∀ D, documents this !! D = None → documents this' !! D = None)
    ∧ eventEmitter this' = eventEmitter this.
Proof.
  intros Hp Hst. unfold settle. rewrite Hp, Hst.
  eexists. split; [reflexivity|]. by simpl.
Qed.

(** ** Runs of events *)

Lemma run_app (tr1 tr2 : list Event) (this : SyntaxTreeProvider) :
  run (tr1 ++ tr2) this = run tr2 (run tr1 this).
Proof. revert this. induction tr1 as [|ev tr1 IH]; intros this; simpl; auto. Qed.


(** An event that answers no request for [D] writes no entry for [D]. *)
Lemma step_unanswered_absent
    (ev : Event) (this : SyntaxTreeProvider) (D : FilePath) :
  answers D ev this = false →
  documents this !! D = None →
  documents (step ev this) !! D = None.
Proof.
  intros Ha Hnone. destruct ev as [event|e|doc|e|u token|p s|o|]; simpl in *.
  - rewrite lookup_delete. by case_decide.
  - unfold onDidChangeActiveTextEditor.
    destruct e as [ed|]; [destruct (isBiomeEditor ed)|]; done.
  - destruct doc as [d|]; simpl; [|done].
    rewrite lookup_delete. by case_decide.
  - done.
  - unfold provideTextDocumentContent.
    destruct (editor (session this)) as [ed|]; simpl;
      [destruct (documents this !! toString _); simpl|]; done.
  - unfold settle.
    destruct (client (session this) !! p) as [r|]; [|done].
    destruct (req_state r); [|done].
    destruct s as [result|e]; simpl; [|done].
    apply bool_decide_eq_false_1 in Ha. by rewrite lookup_insert_ne.
  - by destruct o.
  - apply lookup_empty.
Qed.

Lemma run_unanswered_absent
    (tr : list Event) (this : SyntaxTreeProvider) (D : FilePath) :
  unanswered D tr this = true →
  documents this !! D = None →
  documents (run tr this) !! D = None.
Proof.
  revert this. induction tr as [|ev tr IH]; intros this Hu Hnone; simpl in *.
  - done.
  - apply andb_prop in Hu as [Ha Hu]. apply negb_true_iff in Ha.
    apply IH; [done|]. by apply step_unanswered_absent.
Qed.

(** ** The miss path *)

Lemma provideTextDocumentContent_miss
    (this : SyntaxTreeProvider) (u : Uri) (token : CancellationToken)
    (ed : TextEditor) :
  editor (session this) = Some ed →
  documents this !! toString (doc_uri (editor_document ed)) = None →
  provideTextDocumentContent u token this
  = (set_client
       (λ c, c ++ [ {| req_params :=
                         {| textDocument_uri := toString (doc_uri (editor_document ed)) |};
                       req_token := token;
                       req_then :=
                         {| captured_uri := u;
                            captured_documentUri := toString (doc_uri (editor_document ed)) |};
                       req_state := Pending |} ]) this,
     Thenable (length (client (session this)))).
Proof.
  intros Hed Hdoc. unfold provideTextDocumentContent.
  rewrite Hed. simpl. by rewrite Hdoc.
Qed.

(** C2: once the handler of document changes or the handler of closed
    documents has run for [D], the cache has no entry for [D]; and, so long
    as no request for [D] that was in flight succeeds in between, a content
    query made with [D] in focus afterwards, the next one in particular,
    sends one request to the language client, for [D] and with the caller's
    token, and answers with its promise. *)
Theorem invalidation_forces_refetch
    (this this' : SyntaxTreeProvider) (D : FilePath) (tr : list Event)
    (ed : TextEditor) (u : Uri) (token : CancellationToken) :
  invalidated_by_handler D this this' →
  unanswered D tr this' = true →
  editor (session (run tr this')) = Some ed →
  toString (doc_uri (editor_document ed)) = D →
  documents this' !! D = None
  ∧ ∃ after p,
      provideTextDocumentContent u token (run tr this') = (after, Thenable p)
      ∧ client (session after)
        = client (session (run tr this')) ++ [request_for D u token].
Proof.
  intros Hinv Hq Hed HD.
  assert (Hnone : documents this' !! D = None).
  { destruct Hinv as [event <- | doc <-]; simpl; apply lookup_delete_eq. }
  split; [done|].
  pose proof (run_unanswered_absent tr this' D Hq Hnone) as Hnow.
  subst D. do 2 eexists.
  rewrite (provideTextDocumentContent_miss _ u token ed Hed Hnow).
  split; reflexivity.
Qed.

(** ** A request in flight *)

(** Nothing but its own settlement touches a promise of the client. *)
Lemma step_keeps_request
    (ev : Event) (this : SyntaxTreeProvider) (p : nat) (r : Request) :
  (∀ s, ev ≠ RequestSettled p s) →
  client (session this) !! p = Some r →
  client (session (step ev this)) !! p = Some r.
Proof.
  intros Hev Hp. destruct ev as [event|e|doc|e|u token|q s|o|]; simpl; try done.
  - unfold onDidChangeActiveTextEditor.
    destruct e as [ed|]; [destruct (isBiomeEditor ed)|]; done.
  - by destruct doc.
  - unfold provideTextDocumentContent.
    destruct (editor (session this)) as [ed|]; [|done]. simpl.
    destruct (documents this !! _); [done|]. simpl.
    by apply lookup_app_l_Some.
  - assert (q ≠ p) as Hqp by (intros ->; by eapply Hev).
    unfold settle.
    destruct (client (session this) !! q) as [r'|]; [|done].
    destruct (req_state r'); [|done].
    destruct s as [result|e]; simpl; by rewrite list_lookup_insert_ne.
  - by destruct o.
Qed.

Lemma run_keeps_request
    (tr : list Event) (this : SyntaxTreeProvider) (p : nat) (r : Request) :
  Forall (λ ev, ∀ s, ev ≠ RequestSettled p s) tr →
  client (session this) !! p = Some r →
  client (session (run tr this)) !! p = Some r.
Proof.
  intros Htr. revert this. induction Htr as [|ev tr Hev _ IH]; intros this Hp.
  - done.
  - simpl. apply IH. by apply step_keeps_request.
Qed.

Lemma settle_fulfilled
    (this : SyntaxTreeProvider) (p : nat) (r : Request) (result : string) :
  client (session this) !! p = Some r →
  req_state r = Pending →
  ∃ this',
    settle p (Fulfilled result) this = Some (this', Fulfilled result)
    ∧ documents this'
      = <[captured_documentUri (req_then r) :=
            new_SyntaxTreeDocument (captured_uri (req_then r)) result]>
          (documents this).
Proof.
  intros Hp Hst. unfold settle. rewrite Hp, Hst. simpl. eauto.
Qed.

(** C10: on a miss the identity [D] of the document in focus is read once,
    before the request is sent, and the one request that goes out asks for
    [D], carries the caller's token and has a callback that holds [D].
    Whatever happens while the request is in flight, the focus moving
    elsewhere included, it stays the request for [D]; a successful answer to
    it is stored under [D] and under no other key, the entry is built from
    the [uri] of the query and the answer, its [value] is the answer, and
    the answer is what the caller receives. *)
Theorem fetched_text_stored_under_captured_identity
    (this : SyntaxTreeProvider) (u : Uri) (token : CancellationToken)
    (ed : TextEditor) :
  editor (session this) = Some ed →
  documents this !! toString (doc_uri (editor_document ed)) = None →
  ∃ this1 p,
    provideTextDocumentContent u token this = (this1, Thenable p)
    ∧ p = length (client (session this))
    ∧ client (session this1)
      = client (session this)
        ++ [request_for (toString (doc_uri (editor_document ed))) u token]
    ∧ documents this1 = documents this
    ∧ ∀ (tr : list Event) (result : string),
        Forall (λ ev, ∀ s, ev ≠ RequestSettled p s) tr →
        client (session (run tr this1)) !! p
        = Some (request_for (toString (doc_uri (editor_document ed))) u token)
        ∧ ∃ this2,
            settle p (Fulfilled result) (run tr this1)
            = Some (this2, Fulfilled result)
            ∧ documents this2
              = <[toString (doc_uri (editor_document ed)) :=
                    new_SyntaxTreeDocument u result]> (documents (run tr this1))
            ∧ value <$> documents this2 !! toString (doc_uri (editor_document ed))
              = Some result.
Proof.
  intros Hed Hdoc. do 2 eexists.
  split; [by apply provideTextDocumentContent_miss|].
  split_and!; [done|done|done|].
  intros tr result Htr.
  set (r := request_for (toString (doc_uri (editor_document ed))) u token).
  set (this1 := set_client (λ c, c ++ [r]) this).
  assert (Hp : client (session (run tr this1)) !! length (client (session this))
               = Some r).
  { apply run_keeps_request; [done|]. simpl.
    rewrite lookup_app_r by lia. by rewrite Nat.sub_diag. }
  split; [exact Hp|].
  destruct (settle_fulfilled _ _ _ result Hp eq_refl) as (this2 & Hs & Hd).
  exists this2. split_and!; [done|done|].
  rewrite Hd. simpl. by rewrite lookup_insert_eq.
Qed.

(** ** Where a cache entry comes from *)






(** * Further properties of the provider *)

(** ** Invalidation *)

Lemma invalidated_by_handler_documents
    (D : FilePath) (this this' : SyntaxTreeProvider) :
  invalidated_by_handler D this this' →
  documents this' = delete D (documents this)
  ∧ eventEmitter this' = eventEmitter this ++ [uri]
  ∧ session this' = session this.
Proof. intros [event <- | doc <-]; done. Qed.

(** X1: a change or a close of a document that has no entry leaves the
    cache the very same map, and fires the emitter all the same. *)
Theorem invalidating_uncached_keeps_cache
    (D : FilePath) (this this' : SyntaxTreeProvider) :
  invalidated_by_handler D this this' →
  documents this !! D = None →
  documents this' = documents this
  ∧ eventEmitter this' = eventEmitter this ++ [uri].
Proof.
  intros H Hnone.
  destruct (invalidated_by_handler_documents _ _ _ H) as (Hd & He & _).
  split; [|done]. rewrite Hd. by apply delete_id.
Qed.

(** X2: invalidating the same identity a second time changes nothing more
    in the cache; the emitter has fired twice. *)
Theorem invalidation_idempotent
    (D : FilePath) (this this1 this2 : SyntaxTreeProvider) :
  invalidated_by_handler D this this1 →
  invalidated_by_handler D this1 this2 →
  documents this2 = documents this1
  ∧ eventEmitter this2 = eventEmitter this ++ [uri; uri].
Proof.
  intros H1 H2.
  destruct (invalidated_by_handler_documents _ _ _ H1) as (Hd1 & He1 & _).
  destruct (invalidated_by_handler_documents _ _ _ H2) as (Hd2 & He2 & _).
  split.
  - by rewrite Hd2, Hd1, delete_delete_eq.
  - by rewrite He2, He1, <- app_assoc.
Qed.

(** X3: invalidations of two identities give the same cache in either
    order. *)
Theorem invalidations_commute
    (D1 D2 : FilePath) (this a ab b ba : SyntaxTreeProvider) :
  invalidated_by_handler D1 this a →
  invalidated_by_handler D2 a ab →
  invalidated_by_handler D2 this b →
  invalidated_by_handler D1 b ba →
  documents ab = documents ba.
Proof.
  intros Ha Hab Hb Hba.
  destruct (invalidated_by_handler_documents _ _ _ Ha) as (Ea & _).
  destruct (invalidated_by_handler_documents _ _ _ Hab) as (Eab & _).
  destruct (invalidated_by_handler_documents _ _ _ Hb) as (Eb & _).
  destruct (invalidated_by_handler_documents _ _ _ Hba) as (Eba & _).
  rewrite Eab, Ea, Eba, Eb. apply delete_delete.
Qed.

(** ** Queries *)

(** X4: requests are not shared.  Two queries in a row for a document
    without an entry send two requests for it, each with its own token and
    its own promise, and both are pending. *)
Theorem consecutive_misses_send_two_requests
    (this : SyntaxTreeProvider) (ed : TextEditor)
    (u1 u2 : Uri) (t1 t2 : CancellationToken) :
  editor (session this) = Some ed →
  documents this !! toString (doc_uri (editor_document ed)) = None →
  let D := toString (doc_uri (editor_document ed)) in
  let n := length (client (session this)) in
  let first := provideTextDocumentContent u1 t1 this in
  let second := provideTextDocumentContent u2 t2 (fst first) in
  snd first = Thenable n
  ∧ snd second = Thenable (S n)
  ∧ client (session (fst second))
    = client (session this)
      ++ [ {| req_params := {| textDocument_uri := D |}; req_token := t1;
              req_then := {| captured_uri := u1; captured_documentUri := D |};
              req_state := Pending |};
           {| req_params := {| textDocument_uri := D |}; req_token := t2;
              req_then := {| captured_uri := u2; captured_documentUri := D |};
              req_state := Pending |} ].
Proof.
  intros Hed Hdoc. simpl.
  rewrite (provideTextDocumentContent_miss this u1 t1 ed Hed Hdoc). simpl.
  rewrite (provideTextDocumentContent_miss _ u2 t2 ed); [|done|done]. simpl.
  split_and!; [done| |].
  - by rewrite length_app, Nat.add_1_r.
  - by rewrite <- app_assoc.
Qed.

(** X5: the content query does nothing to the provider but, on a miss,
    append a request: it writes no entry, fires nothing and leaves the
    editor in focus alone, on each of its three paths. *)
Theorem provideTextDocumentContent_effects
    (this : SyntaxTreeProvider) (u : Uri) (token : CancellationToken) :
  let this' := fst (provideTextDocumentContent u token this) in
  documents this' = documents this
  ∧ eventEmitter this' = eventEmitter this
  ∧ editor (session this') = editor (session this)
  ∧ ∃ new, client (session this') = client (session this) ++ new
           ∧ length new ≤ 1.
Proof.
  unfold provideTextDocumentContent.
  destruct (editor (session this)) as [ed|] eqn:Hed; simpl;
    [destruct (documents this !! toString _); simpl|].
  - split_and!; try done. exists []. split; [by rewrite app_nil_r|simpl; lia].
  - split_and!; try done. eexists [_]. split; [done|simpl; lia].
  - split_and!; try done. exists []. split; [by rewrite app_nil_r|simpl; lia].
Qed.

(** X6: the link query and the content query agree.  With an editor in
    focus, the links of its document are the empty list exactly when the
    content query is answered at once with a text. *)
Theorem links_iff_content_hit
    (this : SyntaxTreeProvider) (ed : TextEditor)
    (u : Uri) (token : CancellationToken) :
  editor (session this) = Some ed →
  provideDocumentLinks (editor_document ed) this = Value (Some [])
  ↔ ∃ text, provideTextDocumentContent u token this
            = (this, Value (Some text)).
Proof.
  intros Hed. unfold provideDocumentLinks, provideTextDocumentContent.
  rewrite Hed. simpl.
  destruct (documents this !! toString (doc_uri (editor_document ed))); simpl.
  - split; [eauto|done].
  - split; [done|]. by intros (text & [= _ ?]).
Qed.

(** X7: a provider just constructed answers nothing from its cache: the
    link query is [undefined] for every document, and the content query is
    [undefined] without an editor and a new request with one. *)
Theorem constructor_cache_empty
    (s : Session) (document : TextDocument)
    (u : Uri) (token : CancellationToken) :
  provideDocumentLinks document (constructor s) = Value None
  ∧ eventEmitter (constructor s) = []
  ∧ snd (provideTextDocumentContent u token (constructor s))
    = match editor s with
      | Some _ => Thenable (length (client s))
      | None => Value None
      end.
Proof.
  split_and!; [|done|].
  - unfold provideDocumentLinks. simpl. by rewrite lookup_empty.
  - unfold provideTextDocumentContent. simpl.
    destruct (editor s); [|done]. simpl. by rewrite lookup_empty.
Qed.

(** ** The emitter *)

Lemma step_eventEmitter (ev : Event) (this : SyntaxTreeProvider) :
  eventEmitter (step ev this)
  = eventEmitter this ++ (if notifies ev then [uri] else []).
Proof.
  destruct ev as [event|e|doc|e|u token|p s|o|]; simpl;
    try by rewrite app_nil_r.
  - done.
  - unfold onDidChangeActiveTextEditor.
    destruct e as [ed|]; [destruct (isBiomeEditor ed)|]; simpl;
      by rewrite ?app_nil_r.
  - destruct doc; simpl; by rewrite ?app_nil_r.
  - unfold provideTextDocumentContent.
    destruct (editor (session this)) as [ed|]; simpl;
      [destruct (documents this !! toString _); simpl|]; by rewrite app_nil_r.
  - unfold settle.
    destruct (client (session this) !! p) as [r|];
      [destruct (req_state r); [destruct s|]|]; simpl; by rewrite app_nil_r.
  - destruct o; simpl; by rewrite ?app_nil_r.
Qed.

(** X8: over any run the emitter fires the view's [uri] and nothing else,
    once for each change, each close of a given document, each accepted
    change of the active editor and each run of the command in which
    [openTextDocument] resolved; a run of the command in which it rejected,
    queries, answers of the language client, moves of the focus and
    [dispose] fire nothing. *)
Theorem eventEmitter_run (tr : list Event) (this : SyntaxTreeProvider) :
  eventEmitter (run tr this)
  = eventEmitter this
    ++ replicate (length (filter (λ ev, notifies ev) tr)) uri.
Proof.
  revert this. induction tr as [|ev tr IH]; intros this; simpl.
  - by rewrite app_nil_r.
  - rewrite IH, step_eventEmitter, filter_cons.
    destruct (notifies ev); simpl.
    + by rewrite <- app_assoc.
    + by rewrite app_nil_r.
Qed.

(** ** The request log *)

(** X9: the language client is asked for something by a content query
    that misses, once, and by nothing else: every other event, the
    settlement of a request included, leaves the number of requests as it
    is. *)
Theorem requests_sent_only_on_miss (ev : Event) (this : SyntaxTreeProvider) :
  length (client (session (step ev this)))
  = length (client (session this)) + (if sends_request ev this then 1 else 0).
Proof.
  destruct ev as [event|e|doc|e|u token|p s|o|]; simpl;
    try by rewrite Nat.add_0_r.
  - unfold onDidChangeActiveTextEditor.
    destruct e as [ed|]; [destruct (isBiomeEditor ed)|]; simpl;
      by rewrite Nat.add_0_r.
  - destruct doc; simpl; by rewrite Nat.add_0_r.
  - unfold provideTextDocumentContent.
    destruct (editor (session this)) as [ed|]; simpl;
      [destruct (documents this !! toString _) eqn:Hd; simpl|].
    + by rewrite Nat.add_0_r.
    + by rewrite length_app.
    + by rewrite Nat.add_0_r.
  - unfold settle.
    destruct (client (session this) !! p) as [r|];
      [destruct (req_state r); [destruct s|]|]; simpl;
      by rewrite ?length_insert, Nat.add_0_r.
  - destruct o; simpl; by rewrite Nat.add_0_r.
Qed.

(** ** From a fetch to a hit *)

Lemma step_keeps_entry
    (ev : Event) (this : SyntaxTreeProvider) (D : FilePath)
    (doc : SyntaxTreeDocument) :
  keeps D ev →
  documents this !! D = Some doc →
  documents (step ev this) !! D = Some doc.
Proof.
  unfold keeps, invalidates.
  destruct ev as [event|e|d|e|u token|p s|o|]; simpl; intros Hk Hdoc.
  - rewrite lookup_delete_ne; [done|]. intros Heq. apply Hk. left. by rewrite Heq.
  - unfold onDidChangeActiveTextEditor.
    destruct e as [ed|]; [destruct (isBiomeEditor ed)|]; done.
  - destruct d as [d|]; simpl; [|done].
    rewrite lookup_delete_ne; [done|]. intros Heq. apply Hk. left. by rewrite Heq.
  - done.
  - unfold provideTextDocumentContent.
    destruct (editor (session this)) as [ed|]; simpl;
      [destruct (documents this !! toString _); simpl|]; done.
  - destruct s as [result|e]; [done|]. unfold settle.
    destruct (client (session this) !! p) as [r|]; [|done].
    by destruct (req_state r).
  - by destruct o.
  - destruct Hk. by right.
Qed.

Lemma run_keeps_entry
    (tr : list Event) (this : SyntaxTreeProvider) (D : FilePath)
    (doc : SyntaxTreeDocument) :
  Forall (keeps D) tr →
  documents this !! D = Some doc →
  documents (run tr this) !! D = Some doc.
Proof.
  intros Htr. revert this. induction Htr as [|ev tr Hev _ IH]; intros this Hdoc.
  - done.
  - simpl. by apply IH, step_keeps_entry.
Qed.

(** X10: a fetch feeds the later queries.  After a query that misses for
    [D], any events while its request is in flight, the success of the
    request with [result], and then any events that neither invalidate [D]
    nor bring another answer, a query made with [D] in focus again returns
    [result] at once and leaves the provider as it is. *)
Theorem fetch_then_hit
    (this : SyntaxTreeProvider) (ed ed' : TextEditor) (u u' : Uri)
    (token token' : CancellationToken) (tr0 tr : list Event) (result : string) :
  let D := toString (doc_uri (editor_document ed)) in
  let p := length (client (session this)) in
  let final :=
    run (ContentRequested u token
           :: tr0 ++ RequestSettled p (Fulfilled result) :: tr) this in
  editor (session this) = Some ed →
  documents this !! D = None →
  Forall (λ ev, ∀ s, ev ≠ RequestSettled p s) tr0 →
  Forall (keeps D) tr →
  editor (session final) = Some ed' →
  toString (doc_uri (editor_document ed')) = D →
  provideTextDocumentContent u' token' final = (final, Value (Some result)).
Proof.
  intros D p final Hed Hdoc Htr0 Htr Hed' HD'.
  assert (Hentry : documents final !! D = Some (new_SyntaxTreeDocument u result)).
  { set (r := {| req_params := {| textDocument_uri := D |}; req_token := token;
                 req_then := {| captured_uri := u; captured_documentUri := D |};
                 req_state := Pending |}).
    set (this1 := set_client (λ c, c ++ [r]) this).
    assert (Hstep1 : step (ContentRequested u token) this = this1).
    { unfold step.
      by rewrite (provideTextDocumentContent_miss this u token ed Hed Hdoc). }
    assert (Hp : client (session (run tr0 this1)) !! p = Some r).
    { apply run_keeps_request; [done|]. simpl.
      rewrite lookup_app_r by (unfold p; lia). unfold p. by rewrite Nat.sub_diag. }
    destruct (settle_fulfilled _ _ _ result Hp eq_refl) as (this2 & Hs & Hd).
    assert (Hstep2 : step (RequestSettled p (Fulfilled result)) (run tr0 this1)
                     = this2).
    { unfold step. by rewrite Hs. }
    unfold final.
    change (run (ContentRequested u token
                   :: tr0 ++ RequestSettled p (Fulfilled result) :: tr) this)
      with (run (tr0 ++ RequestSettled p (Fulfilled result) :: tr)
              (step (ContentRequested u token) this)).
    rewrite Hstep1, run_app.
    change (run (RequestSettled p (Fulfilled result) :: tr) (run tr0 this1))
      with (run tr (step (RequestSettled p (Fulfilled result)) (run tr0 this1))).
    rewrite Hstep2.
    apply run_keeps_entry; [done|]. rewrite Hd. simpl. apply lookup_insert_eq. }
  unfold provideTextDocumentContent. rewrite Hed'. simpl.
  rewrite HD'. by rewrite Hentry.
Qed.

(** ** Answers that come late *)

(** X11: [dispose] empties the cache and does nothing about the requests
    in flight: when one of them succeeds afterwards its answer is stored,
    and the cache of the disposed provider holds that one entry. *)
Theorem answer_after_dispose
    (this : SyntaxTreeProvider) (p : nat) (r : Request) (result : string) :
  client (session this) !! p = Some r →
  req_state r = Pending →
  ∃ this',
    settle p (Fulfilled result) (dispose this) = Some (this', Fulfilled result)
    ∧ documents this'
      = {[ captured_documentUri (req_then r) :=
             new_SyntaxTreeDocument (captured_uri (req_then r)) result ]}.
Proof.
  intros Hp Hst.
  destruct (settle_fulfilled (dispose this) p r result Hp Hst) as (this' & Hs & Hd).
  exists this'. split; [done|]. rewrite Hd. simpl. apply insert_empty.
Qed.

Lemma settle_keeps_other_request
    (this this' : SyntaxTreeProvider) (p q : nat)
    (s out : Settlement string) :
  settle p s this = Some (this', out) →
  p ≠ q →
  client (session this') !! q = client (session this) !! q.
Proof.
  unfold settle. intros Hs Hpq.
  destruct (client (session this) !! p) as [r|]; [|done].
  destruct (req_state r); [|done].
  destruct s as [result|e]; injection Hs as <- _; simpl;
    by rewrite list_lookup_insert_ne.
Qed.

(** X12: when two requests for the same document are in flight and both
    succeed, the cache ends with the answer that arrived last, whichever
    of the two was sent first. *)
Theorem last_answer_wins
    (this : SyntaxTreeProvider) (p q : nat) (rp rq : Request) (a b : string) :
  client (session this) !! p = Some rp →
  client (session this) !! q = Some rq →
  p ≠ q →
  req_state rp = Pending →
  req_state rq = Pending →
  captured_documentUri (req_then rp) = captured_documentUri (req_then rq) →
  ∃ this1 this2,
    settle p (Fulfilled a) this = Some (this1, Fulfilled a)
    ∧ settle q (Fulfilled b) this1 = Some (this2, Fulfilled b)
    ∧ documents this2
      = <[captured_documentUri (req_then rq) :=
            new_SyntaxTreeDocument (captured_uri (req_then rq)) b]>
          (documents this).
Proof.
  intros Hp Hq Hpq Hsp Hsq HD.
  destruct (settle_fulfilled this p rp a Hp Hsp) as (this1 & Hs1 & Hd1).
  assert (Hq1 : client (session this1) !! q = Some rq).
  { by rewrite (settle_keeps_other_request _ _ _ _ _ _ Hs1 Hpq). }
  destruct (settle_fulfilled this1 q rq b Hq1 Hsq) as (this2 & Hs2 & Hd2).
  exists this1, this2. split_and!; [done|done|].
  by rewrite Hd2, Hd1, HD, insert_insert_eq.
Qed.

End Provider.

(** * The scenarios, run *)

Example scenario_A_result :
  run not_python scenario_A (start (Some editor_a)) = provider_with_a.
Proof. reflexivity. Qed.

(** Scenario B: the same query again is answered from the cache. *)
Lemma provideTextDocumentContent_hit_witness :
  provideTextDocumentContent uri 9 provider_with_a
  = (provider_with_a, Value (Some "TREE(a)"))
  ∧ client (session (fst (provideTextDocumentContent uri 9 provider_with_a)))
    = client (session provider_with_a).
Proof.
  exact (provideTextDocumentContent_hit provider_with_a uri 9 editor_a
           (new_SyntaxTreeDocument uri "TREE(a)") eq_refl eq_refl).
Defined.

Lemma provideTextDocumentContent_no_editor_witness :
  editor (session (start None)) = None
  ∧ provideTextDocumentContent uri 9 (start None) = (start None, Value None).
Proof.
  split; [reflexivity|].
  exact (proj1 (provideTextDocumentContent_no_editor (start None) uri 9 eq_refl)).
Defined.

(** Scenario C: an edit of [a.ts]; the focus goes away, [b.py] is fetched,
    the focus comes back; the next query for [a.ts] sends one request. *)
Lemma invalidation_forces_refetch_witness :
  let this' := onDidChangeTextDocument {| event_document := a_ts |} provider_with_a in
  documents this' !! "file:///a.ts" = None
  ∧ ∃ after p,
      provideTextDocumentContent uri 9 (run not_python focus_round_trip this')
      = (after, Thenable p)
      ∧ client (session after)
        = client (session (run not_python focus_round_trip this'))
          ++ [request_for "file:///a.ts" uri 9].
Proof.
  apply (invalidation_forces_refetch not_python provider_with_a _ "file:///a.ts"
           focus_round_trip editor_a uri 9).
  - by apply (by_change "file:///a.ts" provider_with_a {| event_document := a_ts |}).
  - reflexivity.
  - reflexivity.
  - reflexivity.
Defined.

(** C2, as the specification words it, fails.  A request for [a.ts] is in
    flight when [a.ts] is edited: right after the handler the entry is
    absent, then the old answer arrives and is stored, and the next query
    for [a.ts] is served from the cache and sends nothing. *)
Lemma late_answer_prevents_refetch :
  ¬ refetch_after_invalidation not_python
      provider_fetching_a
      (onDidChangeTextDocument {| event_document := a_ts |} provider_fetching_a)
      "file:///a.ts"
      [RequestSettled 0 (Fulfilled "TREE(a), before the edit")]
      editor_a uri 9.
Proof.
  unfold refetch_after_invalidation. intros H.
  destruct H as (_ & after & p & Hq & _).
  - by apply (by_change "file:///a.ts" provider_fetching_a
                {| event_document := a_ts |}).
  - repeat constructor. discriminate.
  - reflexivity.
  - reflexivity.
  - vm_compute in Hq. discriminate Hq.
Qed.

(** Scenario E: the request for [a.ts] is cancelled in flight. *)
Lemma settle_rejected_witness :
  ∃ this',
    settle 0 (Rejected RequestCancelled)
      (fst (provideTextDocumentContent uri 7 (start (Some editor_a))))
    = Some (this', Rejected RequestCancelled)
    ∧ documents this' !! "file:///a.ts" = None.
Proof.
  destruct (settle_rejected
              (fst (provideTextDocumentContent uri 7 (start (Some editor_a)))) 0
              {| req_params := {| textDocument_uri := "file:///a.ts" |};
                 req_token := 7;
                 req_then := {| captured_uri := uri;
                                captured_documentUri := "file:///a.ts" |};
                 req_state := Pending |}
              RequestCancelled eq_refl eq_refl)
    as (this' & Hs & _ & Hnone & _).
  exists this'. split; [exact Hs|]. apply Hnone. reflexivity.
Defined.

(** An edit of [b.py] leaves the entry of [a.ts] alone. *)
Lemma invalidation_is_scoped_witness :
  documents (onDidChangeTextDocument {| event_document := b_py |} provider_with_a)
    !! "file:///a.ts"
  = Some (new_SyntaxTreeDocument uri "TREE(a)").
Proof.
  etrans.
  - apply (invalidation_is_scoped provider_with_a
             (onDidChangeTextDocument {| event_document := b_py |} provider_with_a)
             "file:///b.py" "file:///a.ts"); [discriminate|].
    left. by apply (by_change "file:///b.py" provider_with_a
                      {| event_document := b_py |}).
  - reflexivity.
Defined.

(** The focus moves to [b.py] while the request for [a.ts] is in flight:
    the request asks for [a.ts] and the answer is stored under [a.ts]. *)
Lemma fetched_text_stored_under_captured_identity_witness :
  ∃ this1 p,
    provideTextDocumentContent uri 7 (start (Some editor_a)) = (this1, Thenable p)
    ∧ client (session this1)
      = [ {| req_params := {| textDocument_uri := "file:///a.ts" |};
             req_token := 7;
             req_then := {| captured_uri := uri;
                            captured_documentUri := "file:///a.ts" |};
             req_state := Pending |} ]
    ∧ ∃ this2,
        settle p (Fulfilled "TREE(a)")
          (run not_python [FocusMoved (Some editor_b)] this1)
        = Some (this2, Fulfilled "TREE(a)")
        ∧ editor (session this2) = Some editor_b
        ∧ documents this2 !! "file:///a.ts"
          = Some (new_SyntaxTreeDocument uri "TREE(a)")
        ∧ documents this2 !! "file:///b.py" = None.
Proof.
  destruct (fetched_text_stored_under_captured_identity not_python
              (start (Some editor_a)) uri 7 editor_a eq_refl eq_refl)
    as (this1 & p & Hq & Hp & Hc & _ & Hrest).
  exists this1, p. split; [exact Hq|]. split; [exact Hc|].
  destruct (Hrest [FocusMoved (Some editor_b)] "TREE(a)")
    as (_ & this2 & Hs & Hd & _).
  { subst p. repeat constructor. discriminate. }
  exists this2. split; [exact Hs|].
  injection Hq as <- <-. injection Hs as <-.
  split_and!; reflexivity.
Defined.


(** An edit that arrives while a request is in flight does not stop the
    answer from being stored: the entry is the text of before the edit. *)
Example late_answer_is_cached :
  documents (run not_python scenario_late_answer (start (Some editor_a)))
    !! "file:///a.ts"
  = Some (new_SyntaxTreeDocument uri "TREE(a), before the edit").
Proof. reflexivity. Qed.


(** * The further properties, run *)

(** The command when the view cannot be opened, and when it can. *)
Example command_fires_after_open :
  eventEmitter
    (run not_python
       [CommandRun (Rejected (ServiceError "cannot open"));
        CommandRun (Fulfilled {| doc_uri := uri |})]
       provider_with_a)
  = [uri].
Proof. reflexivity. Qed.

Example provider_fetching_a_reached :
  run not_python [ContentRequested uri 7] (start (Some editor_a))
  = provider_fetching_a.
Proof. reflexivity. Qed.

(** An edit of [b.py], which has no entry. *)
Lemma invalidating_uncached_keeps_cache_witness :
  documents (onDidChangeTextDocument {| event_document := b_py |} provider_with_a)
  = documents provider_with_a
  ∧ eventEmitter (onDidChangeTextDocument {| event_document := b_py |} provider_with_a)
    = eventEmitter provider_with_a ++ [uri].
Proof.
  apply (invalidating_uncached_keeps_cache "file:///b.py").
  - by apply (by_change "file:///b.py" provider_with_a {| event_document := b_py |}).
  - reflexivity.
Defined.

(** An edit of [a.ts], then its close. *)
Lemma invalidation_idempotent_witness :
  let this1 := onDidChangeTextDocument {| event_document := a_ts |} provider_with_a in
  let this2 := onDidCloseTextDocument (Some a_ts) this1 in
  documents this2 = documents this1
  ∧ eventEmitter this2 = eventEmitter provider_with_a ++ [uri; uri].
Proof.
  apply (invalidation_idempotent "file:///a.ts").
  - by apply (by_change "file:///a.ts" provider_with_a {| event_document := a_ts |}).
  - by apply (by_close "file:///a.ts" _ a_ts).
Defined.

(** An edit of [a.ts] and a close of [b.py], in both orders. *)
Lemma invalidations_commute_witness :
  documents (onDidCloseTextDocument (Some b_py)
               (onDidChangeTextDocument {| event_document := a_ts |} provider_with_a))
  = documents (onDidChangeTextDocument {| event_document := a_ts |}
                 (onDidCloseTextDocument (Some b_py) provider_with_a)).
Proof.
  apply (invalidations_commute "file:///a.ts" "file:///b.py" provider_with_a
           (onDidChangeTextDocument {| event_document := a_ts |} provider_with_a) _
           (onDidCloseTextDocument (Some b_py) provider_with_a) _).
  - by apply (by_change "file:///a.ts" provider_with_a {| event_document := a_ts |}).
  - by apply (by_close "file:///b.py" _ b_py).
  - by apply (by_close "file:///b.py" provider_with_a b_py).
  - by apply (by_change "file:///a.ts" _ {| event_document := a_ts |}).
Defined.

(** Two queries for [a.ts] on a new provider. *)
Lemma consecutive_misses_send_two_requests_witness :
  let first := provideTextDocumentContent uri 7 (start (Some editor_a)) in
  let second := provideTextDocumentContent uri 8 (fst first) in
  snd first = Thenable 0
  ∧ snd second = Thenable 1
  ∧ length (client (session (fst second))) = 2.
Proof.
  destruct (consecutive_misses_send_two_requests (start (Some editor_a)) editor_a
              uri uri 7 8 eq_refl eq_refl) as (H1 & H2 & H3).
  split_and!; [exact H1 | exact H2 | by rewrite H3].
Defined.

Lemma links_iff_content_hit_witness :
  provideDocumentLinks a_ts provider_with_a = Value (Some [])
  ↔ ∃ text, provideTextDocumentContent uri 9 provider_with_a
            = (provider_with_a, Value (Some text)).
Proof.
  exact (links_iff_content_hit provider_with_a editor_a uri 9 eq_refl).
Defined.

(** The focus leaves [a.ts] while its request is in flight; after the
    answer [b.py] is edited and the focus comes back. *)
Lemma fetch_then_hit_witness :
  let final :=
    run not_python
      [ContentRequested uri 7; FocusMoved (Some editor_b);
       RequestSettled 0 (Fulfilled "TREE(a)");
       DidChangeTextDocument {| event_document := b_py |};
       FocusMoved (Some editor_a)]
      (start (Some editor_a)) in
  provideTextDocumentContent uri 9 final = (final, Value (Some "TREE(a)")).
Proof.
  apply (fetch_then_hit not_python (start (Some editor_a)) editor_a editor_a
           uri uri 7 9 [FocusMoved (Some editor_b)]
           [DidChangeTextDocument {| event_document := b_py |};
            FocusMoved (Some editor_a)] "TREE(a)").
  - reflexivity.
  - reflexivity.
  - repeat constructor. discriminate.
  - repeat constructor; intros [H|H]; discriminate H.
  - reflexivity.
  - reflexivity.
Defined.

Lemma answer_after_dispose_witness :
  ∃ this',
    settle 0 (Fulfilled "TREE(a)") (dispose provider_fetching_a)
    = Some (this', Fulfilled "TREE(a)")
    ∧ documents this'
      = {[ "file:///a.ts" := new_SyntaxTreeDocument uri "TREE(a)" ]}.
Proof.
  exact (answer_after_dispose provider_fetching_a 0 _ "TREE(a)" eq_refl eq_refl).
Defined.

(** Two requests for [a.ts] in flight; the second one is answered first. *)
Lemma last_answer_wins_witness :
  ∃ this1 this2,
    settle 1 (Fulfilled "TREE(a), new")
      (fst (provideTextDocumentContent uri 8 provider_fetching_a))
    = Some (this1, Fulfilled "TREE(a), new")
    ∧ settle 0 (Fulfilled "TREE(a), old") this1
      = Some (this2, Fulfilled "TREE(a), old")
    ∧ documents this2 !! "file:///a.ts"
      = Some (new_SyntaxTreeDocument uri "TREE(a), old").
Proof.
  destruct (last_answer_wins
              (fst (provideTextDocumentContent uri 8 provider_fetching_a))
              1 0 _ _ "TREE(a), new" "TREE(a), old" eq_refl eq_refl)
    as (this1 & this2 & H1 & H2 & H3); [lia|reflexivity|reflexivity|reflexivity|].
  exists this1, this2. split_and!; [exact H1 | exact H2 |].
  rewrite H3. apply lookup_insert_eq.
Defined.
